(** * temprl.wrapper: temporal goals, the step controller and the Gym wrapper

    A shallow embedding of [src/temprl/wrapper.py].  Python objects are
    records, a method that mutates [self] returns its value together with
    the updated object, and the one [StepController] that the wrapper shares
    between all its temporal goals is a single field threaded through the
    loop over the goals. *)

From Stdlib Require Import String ZArith List Bool Arith.
Import ListNotations.

Set Implicit Arguments.

(** ** Python values shared by the classes *)

(** The exceptions the wrapper's code, and the gym constructors it calls,
    can run into. *)
Inductive exn : Type :=
| ValueError
| AssertionError.

(** What a call produces: a returned value or a raised exception. *)
Inductive outcome (A : Type) : Type :=
| Return (a : A)
| Raise (e : exn).

Arguments Return {A} a.
Arguments Raise {A} e.

(** [a, b = zip( *l )] for a list of pairs: with no pair there is nothing to
    unpack and Python raises [ValueError]; otherwise the two tuples are the
    first and the second components, in order. *)
Definition zip_star (A B : Type) (l : list (A * B)) : outcome (list A * list B) :=
  match l with
  | [] => Raise ValueError
  | _ :: _ => Return (map fst l, map snd l)
  end.

(** Rewards are Python floats: a carrier with its zero and its addition,
    of which no law is used. *)
Class RewardOps (Reward : Type) : Type := {
  rzero : Reward;
  radd : Reward -> Reward -> Reward
}.

(** The interface of the wrapped [gym.Env].  The environment is an object of
    its own: [reset] and [step] return their value and the environment they
    leave behind. *)
Class GymEnv (Env Obs Action Reward Info EnvSpace : Type) : Type := {
  env_reset : Env -> Obs * Env;
  env_step : Env -> Action -> (Obs * Reward * bool * Info) * Env;
  env_observation_space : Env -> EnvSpace
}.

Section Temprl.

(** Types of [temprl.types] and of the wrapped environment. *)
Variables Interpretation State Obs Action Info EnvSpace Reward Env : Type.
Context {reward_ops : RewardOps Reward}.
Context {gym_env : GymEnv Env Obs Action Reward Info EnvSpace}.

(** Python's [sum]: a left fold that starts from zero. *)
Definition py_sum (l : list Reward) : Reward := fold_left radd l rzero.

(** ** The automaton collaborator *)

(** Modelled from the spec: [temprl.automata] ([RewardDFA] and
    [RewardDFASimulator]) is not among the sources.  The automaton exposes
    its number of states, an initial-state computation and a fully
    defined, deterministic transition function that also gives the reward
    of the transition. *)
Record RewardDFA : Type := {
  states : nat;
  initial_state : Interpretation -> State;
  transition : State -> Interpretation -> State * Reward
}.

(** Modelled from the spec: the simulator of [temprl.automata] holds the
    automaton and the current state; [reset] stores and returns the
    initial state, [step] stores the successor state and returns it with
    the reward of the transition. *)
Record RewardDFASimulator : Type := {
  dfa : RewardDFA;
  current_state : State
}.

(** Modelled from the spec: the simulator's [reset] forwards to the
    automaton's initial-state computation, stores the result and returns
    it. *)
Definition simulator_reset (s : RewardDFASimulator) (initial_obs : Interpretation)
  : State * RewardDFASimulator :=
  let q := initial_state (dfa s) initial_obs in
  (q, {| dfa := dfa s; current_state := q |}).

(** Modelled from the spec: the simulator's [step] forwards to the
    automaton's transition function from the current state, stores the new
    state and returns it with the reward of the transition. *)
Definition simulator_step (s : RewardDFASimulator) (symbol : Interpretation)
  : (State * Reward) * RewardDFASimulator :=
  let qr := transition (dfa s) (current_state s) symbol in
  (qr, {| dfa := dfa s; current_state := fst qr |}).

(** ** TemporalGoal *)

(** The attributes [_automaton], [_simulator] and [_reward]. *)
Record TemporalGoal : Type := {
  tg_automaton : RewardDFA;
  tg_simulator : RewardDFASimulator;
  tg_reward : Reward
}.

(** [observation_space]: [Discrete(len(self._automaton.states))]. *)
Definition tg_observation_space_n (tg : TemporalGoal) : nat :=
  states (tg_automaton tg).

Definition tg_reset (tg : TemporalGoal) (initial_obs : Interpretation)
  : State * TemporalGoal :=
  let (q, sim) := simulator_reset (tg_simulator tg) initial_obs in
  (q, {| tg_automaton := tg_automaton tg; tg_simulator := sim;
         tg_reward := tg_reward tg |}).

Definition tg_step (tg : TemporalGoal) (symbol : Interpretation)
  : (State * Reward) * TemporalGoal :=
  let (qr, sim) := simulator_step (tg_simulator tg) symbol in
  (qr, {| tg_automaton := tg_automaton tg; tg_simulator := sim;
          tg_reward := tg_reward tg |}).

Definition current_dfa_state (tg : TemporalGoal) : State :=
  current_state (tg_simulator tg).

(** ** StepController *)

Record StepController : Type := {
  started : bool;
  step_func : Interpretation -> bool;
  allow_first : bool
}.

Definition StepController_init (step_func : Interpretation -> bool)
  (allow_first : bool) : StepController :=
  {| started := false; step_func := step_func; allow_first := allow_first |}.

(** The assignment [self.started = b]. *)
Definition set_started (c : StepController) (b : bool) : StepController :=
  {| started := b; step_func := step_func c; allow_first := allow_first c |}.

Definition check (c : StepController) (fluents : Interpretation)
  : bool * StepController :=
  if allow_first c && negb (started c) then
    (true, set_started c true)
  else if negb (started c) then
    let b := step_func c fluents in
    (b, set_started c b)
  else
    (step_func c fluents, c).

Definition sc_reset (c : StepController) : StepController :=
  set_started c false.

(** ** Gym spaces, as the data the constructors are given *)

Inductive Space : Type :=
| EnvObservationSpace (s : EnvSpace)
| Discrete (n : nat)
| MultiDiscrete (nvec : list nat)
| GymTuple (s1 s2 : Space).

(** ** TemporalGoalWrapper *)

(** The attributes of the wrapper.  [temp_goals] holds one goal object per
    position; [step_controller] is the single controller all of them
    share. *)
Record TemporalGoalWrapper : Type := {
  env : Env;
  temp_goals : list TemporalGoal;
  fluent_extractor : Obs -> option Action -> Interpretation;
  step_controller : StepController;
  observation_space : Space
}.

(** gym's constructor [MultiDiscrete(nvec)] asserts that every count of
    [nvec] is positive, which holds of the empty vector; it raises
    [AssertionError] otherwise.  ([Discrete(n)] asserts that [n] is not
    negative, which the length of a collection of states always is, and
    [Tuple] takes the spaces it is given.) *)
Definition gym_MultiDiscrete (nvec : list nat) : outcome Space :=
  if forallb (fun n => 0 <? n) nvec
  then Return (MultiDiscrete nvec)
  else Raise AssertionError.

Definition get_observation_space (e : Env) (goals : list TemporalGoal)
  : outcome Space :=
  let temp_goals_shape := map tg_observation_space_n goals in
  match gym_MultiDiscrete temp_goals_shape with
  | Raise ex => Raise ex
  | Return multi_discrete =>
      Return (GymTuple (EnvObservationSpace (env_observation_space e))
                       multi_discrete)
  end.

(** The controller used when none is given. *)
Definition default_step_controller : StepController :=
  StepController_init (fun _ => true) true.

(** The constructor assigns the environment, the goals, the extractor and
    the controller, and last the observation space; when building the space
    raises, so does the constructor, and there is no wrapper. *)
Definition TemporalGoalWrapper_init (e : Env) (goals : list TemporalGoal)
  (extractor : Obs -> option Action -> Interpretation)
  (controller : option StepController) : outcome TemporalGoalWrapper :=
  match get_observation_space e goals with
  | Raise ex => Raise ex
  | Return space =>
      Return {| env := e;
                temp_goals := goals;
                fluent_extractor := extractor;
                step_controller :=
                  match controller with
                  | Some c => c
                  | None => default_step_controller
                  end;
                observation_space := space |}
  end.

(** The list comprehension of [step]: for each goal in order, first the
    call of [check] on the wrapper's one controller, then either the
    goal's own [step] or its current state with reward zero.  It returns
    the list of pairs, the controller and the goals it leaves behind. *)
Fixpoint states_and_rewards (c : StepController) (fluents : Interpretation)
  (goals : list TemporalGoal)
  : list (State * Reward) * (StepController * list TemporalGoal) :=
  match goals with
  | [] => ([], (c, []))
  | tg :: rest =>
      let (ok, c1) := check c fluents in
      let (sr, tg1) :=
        if ok then tg_step tg fluents
        else ((current_dfa_state tg, rzero), tg) in
      let '(srs, (c2, rest1)) := states_and_rewards c1 fluents rest in
      (sr :: srs, (c2, tg1 :: rest1))
  end.

Definition StepResult : Type := ((Obs * list State) * Reward * bool * Info)%type.

Definition step (w : TemporalGoalWrapper) (action : Action)
  : outcome StepResult * TemporalGoalWrapper :=
  let '((obs, reward, done, info), env1) := env_step (env w) action in
  let fluents := fluent_extractor w obs (Some action) in
  let '(srs, (c1, goals1)) :=
    states_and_rewards (step_controller w) fluents (temp_goals w) in
  let w1 := {| env := env1;
               temp_goals := goals1;
               fluent_extractor := fluent_extractor w;
               step_controller := c1;
               observation_space := observation_space w |} in
  match zip_star srs with
  | Raise e => (Raise e, w1)
  | Return (next_automata_states, temp_goal_rewards) =>
      let total_goal_rewards := py_sum temp_goal_rewards in
      let obs_prime := (obs, next_automata_states) in
      let reward_prime := radd reward total_goal_rewards in
      (Return (obs_prime, reward_prime, done, info), w1)
  end.

(** [[tg.reset(fluents) for tg in self.temp_goals]]. *)
Fixpoint reset_goals (fluents : Interpretation) (goals : list TemporalGoal)
  : list State * list TemporalGoal :=
  match goals with
  | [] => ([], [])
  | tg :: rest =>
      let (q, tg1) := tg_reset tg fluents in
      let (qs, rest1) := reset_goals fluents rest in
      (q :: qs, tg1 :: rest1)
  end.

Definition reset (w : TemporalGoalWrapper)
  : (Obs * list State) * TemporalGoalWrapper :=
  let (obs, env1) := env_reset (env w) in
  let fluents := fluent_extractor w obs None in
  let (automata_states, goals1) := reset_goals fluents (temp_goals w) in
  ((obs, automata_states),
   {| env := env1;
      temp_goals := goals1;
      fluent_extractor := fluent_extractor w;
      step_controller := step_controller w;
      observation_space := observation_space w |}).

(** ** Vocabulary of the properties *)

(** Successive calls of [check] on one controller, one per interpretation:
    each call's result and the controller it leaves behind. *)
Fixpoint check_trace (c : StepController) (fls : list Interpretation)
  : list (bool * StepController) :=
  match fls with
  | [] => []
  | fl :: rest =>
      let r := check c fl in
      r :: check_trace (snd r) rest
  end.

(** The results of [n] successive calls of [check] on one controller with
    the same interpretation, and the controller after them. *)
Definition checks (c : StepController) (fluents : Interpretation) (n : nat)
  : list bool :=
  map fst (check_trace c (repeat fluents n)).

Definition controller_after (c : StepController) (fluents : Interpretation)
  (n : nat) : StepController :=
  Nat.iter n (fun c' => snd (check c' fluents)) c.

(** What the comprehension computes for one goal once its call of [check]
    has answered [ok]. *)
Definition goal_outcome (ok : bool) (tg : TemporalGoal) (fluents : Interpretation)
  : (State * Reward) * TemporalGoal :=
  if ok then tg_step tg fluents else ((current_dfa_state tg, rzero), tg).

(** The interpretation that [step] extracts. *)
Definition step_fluents (w : TemporalGoalWrapper) (action : Action)
  : Interpretation :=
  let '((obs, _, _, _), _) := env_step (env w) action in
  fluent_extractor w obs (Some action).

(** The answers of the calls of [check] that [step] makes, one per goal. *)
Definition step_checks (w : TemporalGoalWrapper) (action : Action) : list bool :=
  checks (step_controller w) (step_fluents w action) (length (temp_goals w)).

(** The pair computed in one step for the goal [tg] when the configured
    list is [before ++ tg :: after]. *)
Definition tracker_outcome (c : StepController) (fluents : Interpretation)
  (before : list TemporalGoal) (tg : TemporalGoal) (after : list TemporalGoal)
  : option (State * Reward) :=
  nth_error (fst (states_and_rewards c fluents (before ++ tg :: after)))
            (length before).

(** A controller is steady on an interpretation when all the calls of one
    step answer alike: it has started, or it does not allow the first
    step, or the gate holds. *)
Definition steady (c : StepController) (fluents : Interpretation) : Prop :=
  started c = true \/ allow_first c = false \/ step_func c fluents = true.

(** ** Sequences of calls *)

(** A call a user makes on the wrapper: [reset()] or [step(action)]. *)
Inductive call : Type :=
| CallReset
| CallStep (action : Action).

(** The wrapper a call leaves behind, whatever it returned or raised. *)
Definition do_call (w : TemporalGoalWrapper) (k : call) : TemporalGoalWrapper :=
  match k with
  | CallReset => snd (reset w)
  | CallStep action => snd (step w action)
  end.

Definition run (w : TemporalGoalWrapper) (calls : list call)
  : TemporalGoalWrapper :=
  fold_left do_call calls w.

(** The same call made on the bare environment. *)
Definition env_call (e : Env) (k : call) : Env :=
  match k with
  | CallReset => snd (env_reset e)
  | CallStep action => snd (env_step e action)
  end.

End Temprl.

Arguments Discrete {EnvSpace} n.
Arguments MultiDiscrete {EnvSpace} nvec.

(** ** A concrete instance: two goals over a counting environment *)

Module Demo.

#[export] Instance z_rewards : RewardOps Z :=
  {| rzero := 0%Z; radd := Z.add |}.

(** The environment counts the actions it has been given. *)
#[export] Instance counter_env : GymEnv nat nat nat Z unit nat :=
  {| env_reset := fun _ => (0, 0);
     env_step := fun e a => ((e + a, 1%Z, false, tt), e + a);
     env_observation_space := fun _ => 100 |}.

(** An interpretation is the list of the names of the fluents that hold. *)
Definition holds (name : string) (fl : list string) : bool :=
  existsb (String.eqb name) fl.

(** Three states, a cycle that pays 5 on every transition. *)
Definition dfa3 : RewardDFA (list string) nat Z :=
  {| states := 3;
     initial_state := fun _ => 0;
     transition := fun q _ => ((q + 1) mod 3, 5%Z) |}.

(** Two states, the second reached on fluent [b], paying 7. *)
Definition dfa2 : RewardDFA (list string) nat Z :=
  {| states := 2;
     initial_state := fun fl => if holds "b" fl then 1 else 0;
     transition := fun q fl => if holds "b" fl then (1, 7%Z) else (q, 0%Z) |}.

(** An automaton without states. *)
Definition dfa0 : RewardDFA (list string) nat Z :=
  {| states := 0;
     initial_state := fun _ => 0;
     transition := fun q _ => (q, 0%Z) |}.

Definition goal_of (d : RewardDFA (list string) nat Z) (q : nat) (r : Z)
  : TemporalGoal (list string) nat Z :=
  {| tg_automaton := d;
     tg_simulator := {| dfa := d; current_state := q |};
     tg_reward := r |}.

Definition g3 := goal_of dfa3 0 5%Z.
Definition g2 := goal_of dfa2 0 7%Z.
Definition g0 := goal_of dfa0 0 0%Z.

(** The fluent [a] holds when the observation is even, [b] after action 2. *)
Definition extractor (obs : nat) (action : option nat) : list string :=
  (if Nat.even obs then ["a"%string] else []) ++
  (match action with Some 2 => ["b"%string] | _ => [] end).

(** A gate that lets a step through when fluent [go] holds. *)
Definition go_gate (fl : list string) : bool := holds "go" fl.

Definition never (fl : list string) : bool := false.

(** The wrapper that the constructor returns for the counting environment,
    the goals and the controller given (see [wrapper_constructed]). *)
Definition wrapper (goals : list (TemporalGoal (list string) nat Z))
  (c : option (StepController (list string)))
  : TemporalGoalWrapper (list string) nat nat nat nat Z nat :=
  {| env := 0;
     temp_goals := goals;
     fluent_extractor := extractor;
     step_controller :=
       match c with
       | Some c' => c'
       | None => default_step_controller (list string)
       end;
     observation_space :=
       GymTuple (EnvObservationSpace 100)
                (MultiDiscrete (map (@tg_observation_space_n _ _ _) goals)) |}.

(** A controller that lets the first step through and refuses ever after,
    and one that waits for its gate. *)
Definition first_only : StepController (list string) :=
  StepController_init never true.

Definition latched : StepController (list string) :=
  StepController_init go_gate false.

(** Two goals under the default controller; three under [first_only]. *)
Definition two_goals := wrapper [g3; g2] None.

Definition three_goals := wrapper [g3; g2; g3] (Some first_only).

(** One episode begun: [reset] and then one [step] with action 2. *)
Definition after_one_step := snd (step (snd (reset two_goals)) 2).

(** A controller that has started and whose gate refuses, two goals under
    it, and a sequence of calls over two episodes. *)
Definition refusing : StepController (list string) :=
  set_started first_only true.

Definition closed_goals := wrapper [g3; g2] (Some refusing).


Definition two_episodes : list (call nat) :=
  [CallReset nat; CallStep 2; CallStep 1; CallReset nat; CallStep 3].

End Demo.


(** * Properties *)

Section Properties.

Variables Interpretation State Obs Action Info EnvSpace Reward Env : Type.
Context {reward_ops : RewardOps Reward}.
Context {gym_env : GymEnv Env Obs Action Reward Info EnvSpace}.

Local Abbreviation Controller := (StepController Interpretation).
Local Abbreviation Tracker := (TemporalGoal Interpretation State Reward).
Local Abbreviation Wrapper :=
  (TemporalGoalWrapper Interpretation State Obs Action EnvSpace Reward Env).

(** ** The step controller *)

(** The three branches of [check], one lemma each. *)
Lemma check_unstarted_allowed (c : Controller) (fl : Interpretation) :
  allow_first c = true -> started c = false ->
  check c fl = (true, set_started c true).
Proof.
  intros Ha Hs. unfold check. rewrite Ha, Hs. reflexivity.
Qed.

Lemma check_unstarted_gated (c : Controller) (fl : Interpretation) :
  allow_first c = false -> started c = false ->
  check c fl = (step_func c fl, set_started c (step_func c fl)).
Proof.
  intros Ha Hs. unfold check. rewrite Ha, Hs. reflexivity.
Qed.

Lemma check_started (c : Controller) (fl : Interpretation) :
  started c = true -> check c fl = (step_func c fl, c).
Proof.
  intros Hs. unfold check. rewrite Hs, andb_false_r. reflexivity.
Qed.

(** [check] touches nothing but the flag. *)
Lemma check_keeps_gate (c : Controller) (fl : Interpretation) :
  step_func (snd (check c fl)) = step_func c /\
  allow_first (snd (check c fl)) = allow_first c.
Proof.
  unfold check.
  destruct (allow_first c && negb (started c)); [split; reflexivity |].
  destruct (negb (started c)); split; reflexivity.
Qed.

(** After a call the flag is set when it was set before or the call
    answered true. *)
Lemma check_started_after (c : Controller) (fl : Interpretation) :
  started (snd (check c fl)) = started c || fst (check c fl).
Proof.
  unfold check.
  destruct (allow_first c) eqn:Ha, (started c) eqn:Hs; simpl;
    try rewrite Hs; reflexivity.
Qed.

Lemma started_sc_reset (c : Controller) : started (sc_reset c) = false.
Proof. reflexivity. Qed.

Lemma started_StepController_init (gate : Interpretation -> bool) (a : bool) :
  started (StepController_init gate a) = false.
Proof. reflexivity. Qed.

(** Once started, every call answers with the gate and leaves the
    controller as it is. *)
Lemma check_trace_started (c : Controller) (fls : list Interpretation) :
  started c = true ->
  check_trace c fls = map (fun fl => (step_func c fl, c)) fls.
Proof.
  intros Hs. induction fls as [| fl rest IH]; simpl.
  - reflexivity.
  - rewrite (check_started c fl Hs). simpl. now rewrite IH.
Qed.

(** While the gate refuses, a controller that does not allow the first
    step stays as [reset] left it. *)
Lemma check_trace_refused (c : Controller) (pre rest : list Interpretation) :
  allow_first c = false ->
  (forall fl, In fl pre -> step_func c fl = false) ->
  check_trace (sc_reset c) (pre ++ rest) =
  map (fun _ => (false, sc_reset c)) pre ++ check_trace (sc_reset c) rest.
Proof.
  intros Ha. induction pre as [| fl pre IH]; intros Hpre; simpl.
  - reflexivity.
  - rewrite (check_unstarted_gated (sc_reset c) fl Ha (started_sc_reset c)).
    simpl. rewrite (Hpre fl (or_introl eq_refl)).
    change (set_started (sc_reset c) false) with (sc_reset c).
    rewrite IH by (intros x Hx; apply Hpre; now right).
    reflexivity.
Qed.

(** C5. A controller with [allow_first = true] whose flag is not set, as
    after construction or [reset], answers true to [check] whatever the
    gate says, and the call sets the flag. *)
Theorem first_check_passes (c : Controller) (fl : Interpretation) :
  allow_first c = true -> started c = false ->
  fst (check c fl) = true /\
  snd (check c fl) = set_started c true /\
  started (snd (check c fl)) = true.
Proof.
  intros Ha Hs. rewrite (check_unstarted_allowed c fl Ha Hs).
  repeat split.
Qed.

Lemma map_constant (A B : Type) (b : B) (l : list A) :
  map (fun _ => b) l = repeat b (length l).
Proof.
  induction l as [| x l IH]; simpl; [reflexivity | now rewrite IH].
Qed.

(** C6. With [allow_first = false], after [reset]: every call made before
    the gate first holds answers false and leaves the flag [started] false;
    the call on which the gate first holds answers true and sets the flag;
    every later call answers with the gate's value on its own
    interpretation and leaves the controller, flag set, as it found it.
    When the gate never holds, every call answers false and the flag stays
    false.  The flag after each call is stated on its own, beside the
    controller each call leaves behind. *)
Theorem latched_activation (c : Controller) :
  allow_first c = false ->
  (forall pre fl post,
      (forall x, In x pre -> step_func c x = false) ->
      step_func c fl = true ->
      check_trace (sc_reset c) (pre ++ fl :: post) =
      map (fun _ => (false, sc_reset c)) pre ++
      (true, set_started c true) ::
      map (fun x => (step_func c x, set_started c true)) post /\
      map (fun r => started (snd r))
          (check_trace (sc_reset c) (pre ++ fl :: post)) =
      repeat false (length pre) ++ repeat true (S (length post))) /\
  (forall fls,
      (forall x, In x fls -> step_func c x = false) ->
      check_trace (sc_reset c) fls = map (fun _ => (false, sc_reset c)) fls /\
      map (fun r => started (snd r)) (check_trace (sc_reset c) fls) =
      repeat false (length fls)).
Proof.
  intros Ha.
  assert (Hlatch : forall pre fl post,
             (forall x, In x pre -> step_func c x = false) ->
             step_func c fl = true ->
             check_trace (sc_reset c) (pre ++ fl :: post) =
             map (fun _ => (false, sc_reset c)) pre ++
             (true, set_started c true) ::
             map (fun x => (step_func c x, set_started c true)) post).
  { intros pre fl post Hpre Hfl.
    rewrite (check_trace_refused c pre (fl :: post) Ha Hpre).
    f_equal. simpl.
    rewrite (check_unstarted_gated (sc_reset c) fl Ha (started_sc_reset c)).
    simpl. rewrite Hfl. f_equal.
    change (set_started (sc_reset c) true) with (set_started c true).
    now rewrite check_trace_started. }
  assert (Hnever : forall fls,
             (forall x, In x fls -> step_func c x = false) ->
             check_trace (sc_reset c) fls =
             map (fun _ => (false, sc_reset c)) fls).
  { intros fls Hfls.
    rewrite <- (app_nil_r fls) at 1.
    rewrite (check_trace_refused c fls [] Ha Hfls).
    simpl. now rewrite app_nil_r. }
  split.
  - intros pre fl post Hpre Hfl. split; [now apply Hlatch |].
    rewrite (Hlatch pre fl post Hpre Hfl).
    rewrite map_app. cbn [map]. rewrite !map_map. cbn [snd].
    change (started (sc_reset c)) with false.
    change (started (set_started c true)) with true.
    now rewrite !map_constant.
  - intros fls Hfls. split; [now apply Hnever |].
    rewrite (Hnever fls Hfls), map_map. cbn [snd].
    change (started (sc_reset c)) with false.
    apply map_constant.
Qed.

(** The flag after the [i]-th call of a trace. *)
Lemma check_trace_started_at (c0 : Controller) (fls : list Interpretation) :
  forall i b c',
    nth_error (check_trace c0 fls) i = Some (b, c') ->
    started c' = started c0 || existsb fst (firstn (S i) (check_trace c0 fls)).
Proof.
  revert c0. induction fls as [| fl rest IH]; intros c0 i b c' Hi.
  - destruct i; discriminate.
  - simpl in Hi. destruct i as [| i].
    + injection Hi as Hi. simpl.
      rewrite orb_false_r.
      rewrite <- (check_started_after c0 fl). now rewrite Hi.
    + simpl in Hi. apply IH in Hi. rewrite Hi.
      rewrite check_started_after.
      change (check_trace c0 (fl :: rest))
        with (check c0 fl :: check_trace (snd (check c0 fl)) rest).
      rewrite firstn_cons. simpl existsb.
      now rewrite orb_assoc.
Qed.

(** C9. Over the calls of [check] that follow a [reset], the flag after a
    call is set exactly when that call or an earlier one answered true: it
    goes from false to true at the first call that answers true, and, since
    no call of [check] clears a flag that is set, it does so at most once. *)
Theorem started_flips_once (c : Controller) (fls : list Interpretation) :
  (forall i b c',
      nth_error (check_trace (sc_reset c) fls) i = Some (b, c') ->
      started c' = existsb fst (firstn (S i) (check_trace (sc_reset c) fls))) /\
  (forall (c1 : Controller) fl,
      started c1 = true -> started (snd (check c1 fl)) = true).
Proof.
  split.
  - intros i b c' Hi.
    now rewrite (check_trace_started_at (sc_reset c) fls i Hi).
  - intros c1 fl Hs. rewrite check_started_after, Hs. reflexivity.
Qed.

(** ** The loop over the goals *)

Lemma checks_S (c : Controller) (fl : Interpretation) (n : nat) :
  checks c fl (S n) = fst (check c fl) :: checks (snd (check c fl)) fl n.
Proof. reflexivity. Qed.

Lemma controller_after_S (c : Controller) (fl : Interpretation) (n : nat) :
  controller_after c fl (S n) = controller_after (snd (check c fl)) fl n.
Proof. unfold controller_after. now rewrite Nat.iter_succ_r. Qed.

Lemma length_checks (c : Controller) (fl : Interpretation) (n : nat) :
  length (checks c fl n) = n.
Proof.
  revert c. induction n as [| n IH]; intros c.
  - reflexivity.
  - rewrite checks_S. simpl. now rewrite IH.
Qed.

(** The comprehension calls [check] once per goal, in order, each call on
    the controller the previous call left behind; the goal at each position
    gets [goal_outcome] of the answer at that position. *)
Lemma states_and_rewards_checks (c : Controller) (fl : Interpretation)
  (goals : list Tracker) :
  states_and_rewards c fl goals =
  (map (fun p => fst (goal_outcome (fst p) (snd p) fl))
       (combine (checks c fl (length goals)) goals),
   (controller_after c fl (length goals),
    map (fun p => snd (goal_outcome (fst p) (snd p) fl))
        (combine (checks c fl (length goals)) goals))).
Proof.
  revert c. induction goals as [| tg rest IH]; intros c.
  - reflexivity.
  - cbn [states_and_rewards length].
    rewrite checks_S, controller_after_S.
    destruct (check c fl) as [ok c1]. cbn [fst snd].
    rewrite (IH c1). cbn [combine map fst snd].
    destruct ok.
    + change (goal_outcome true tg fl) with (tg_step tg fl).
      destruct (tg_step tg fl) as [sr tg1]. reflexivity.
    + reflexivity.
Qed.

Lemma steady_check (c : Controller) (fl : Interpretation) :
  steady c fl ->
  steady (snd (check c fl)) fl /\
  fst (check (snd (check c fl)) fl) = fst (check c fl).
Proof.
  unfold steady, check. destruct c as [s gate a]. simpl.
  destruct a, s, (gate fl) eqn:Hg; simpl; rewrite ?Hg; simpl;
    intros [H | [H | H]]; try discriminate; auto.
Qed.

Lemma checks_steady (c : Controller) (fl : Interpretation) (n : nat) :
  steady c fl -> checks c fl n = repeat (fst (check c fl)) n.
Proof.
  revert c. induction n as [| n IH]; intros c Hc.
  - reflexivity.
  - rewrite checks_S. simpl. f_equal.
    destruct (steady_check Hc) as [Hc1 Heq].
    now rewrite (IH _ Hc1), Heq.
Qed.


(** The outcome of a goal is decided by the call of [check] at its own
    position. *)
Lemma tracker_outcome_cons (c : Controller) (fl : Interpretation)
  (x : Tracker) (before : list Tracker) (tg : Tracker) (after : list Tracker) :
  tracker_outcome c fl (x :: before) tg after =
  tracker_outcome (snd (check c fl)) fl before tg after.
Proof.
  unfold tracker_outcome. cbn [app states_and_rewards length].
  destruct (check c fl) as [ok c1]. cbn [snd].
  destruct (if ok then tg_step x fl else (current_dfa_state x, rzero, x))
    as [sr x1].
  destruct (states_and_rewards c1 fl (before ++ tg :: after))
    as [srs [c2 rest1]].
  reflexivity.
Qed.

Lemma tracker_outcome_nil (c : Controller) (fl : Interpretation)
  (tg : Tracker) (after : list Tracker) :
  tracker_outcome c fl [] tg after =
  Some (fst (goal_outcome (fst (check c fl)) tg fl)).
Proof.
  unfold tracker_outcome. rewrite states_and_rewards_checks.
  cbn [app length]. rewrite checks_S. reflexivity.
Qed.


Lemma nth_error_combine (A B : Type) (l1 : list A) (l2 : list B) :
  forall i a b,
    nth_error l1 i = Some a -> nth_error l2 i = Some b ->
    nth_error (combine l1 l2) i = Some (a, b).
Proof.
  revert l2. induction l1 as [| x l1 IH]; intros l2 i a b H1 H2.
  - destruct i; discriminate.
  - destruct l2 as [| y l2]; [destruct i; discriminate |].
    destruct i as [| i]; simpl in *.
    + congruence.
    + now apply IH.
Qed.

Lemma map_combine_repeat (A B : Type) (f : bool * A -> B) (b : bool)
  (l : list A) :
  map f (combine (repeat b (length l)) l) = map (fun x => f (b, x)) l.
Proof.
  induction l as [| x l IH]; simpl; [reflexivity | now rewrite IH].
Qed.

(** The pair and the goal that the comprehension leaves at a position. *)
Lemma states_and_rewards_nth (c : Controller) (fl : Interpretation)
  (goals : list Tracker) (i : nat) (tg : Tracker) (ok : bool) :
  nth_error goals i = Some tg ->
  nth_error (checks c fl (length goals)) i = Some ok ->
  nth_error (fst (states_and_rewards c fl goals)) i =
    Some (fst (goal_outcome ok tg fl)) /\
  nth_error (snd (snd (states_and_rewards c fl goals))) i =
    Some (snd (goal_outcome ok tg fl)).
Proof.
  intros Hg Hok. rewrite states_and_rewards_checks. cbn [fst snd].
  rewrite !nth_error_map, (nth_error_combine _ _ _ Hok Hg).
  split; reflexivity.
Qed.

(** ** step *)

(** The wrapper that [step] leaves behind, whether it returns or raises. *)
Lemma step_wrapper (w : Wrapper) (action : Action) :
  step_controller (snd (step w action)) =
    fst (snd (states_and_rewards (step_controller w) (step_fluents w action)
                                 (temp_goals w))) /\
  temp_goals (snd (step w action)) =
    snd (snd (states_and_rewards (step_controller w) (step_fluents w action)
                                 (temp_goals w))).
Proof.
  unfold step, step_fluents.
  destruct (env_step (env w) action) as [[[[obs r] d] info] e1].
  destruct (states_and_rewards _ _ _) as [srs [c1 g1]].
  destruct (zip_star srs) as [[sts rs] | e]; split; reflexivity.
Qed.

(** With at least one goal, [step] returns. *)
Lemma step_returns (w : Wrapper) (action : Action) :
  temp_goals w <> [] ->
  fst (step w action) =
  let '((obs, reward, done, info), _) := env_step (env w) action in
  let srs := fst (states_and_rewards (step_controller w)
                    (fluent_extractor w obs (Some action)) (temp_goals w)) in
  Return ((obs, map fst srs), radd reward (py_sum (map snd srs)), done, info).
Proof.
  intros Hne. unfold step.
  destruct (env_step (env w) action) as [[[[obs r] d] info] e1].
  destruct (temp_goals w) as [| g rest]; [contradiction |].
  cbn [states_and_rewards].
  destruct (check _ _) as [ok c1].
  destruct (if ok then _ else _) as [sr g1].
  destruct (states_and_rewards c1 _ rest) as [srs [c2 rest1]].
  reflexivity.
Qed.

(** With no goal there is nothing for [zip] to unpack. *)
Lemma step_without_goals (w : Wrapper) (action : Action) :
  temp_goals w = [] -> fst (step w action) = Raise ValueError.
Proof.
  intros Hnil. unfold step.
  destruct (env_step (env w) action) as [[[[obs r] d] info] e1].
  rewrite Hnil. reflexivity.
Qed.

(** C4. Whenever [step] returns, it returns the inner observation with the
    goals' states, the inner reward plus the sum over the goals, in order, of
    the reward of the goal's own [step] where the controller's call for that
    goal answered true and of zero where it answered false, and the inner
    [done] and [info] as the environment gave them; and with at least one
    goal configured [step] does return. *)
Theorem step_total_reward (w : Wrapper) (action : Action) :
  let '((obs, reward, done, info), _) := env_step (env w) action in
  let fl := fluent_extractor w obs (Some action) in
  let answers := combine (step_checks w action) (temp_goals w) in
  let result : StepResult State Obs Info Reward :=
    ((obs, map (fun p : bool * Tracker =>
                  fst (fst (goal_outcome (fst p) (snd p) fl))) answers),
     radd reward
       (py_sum (map (fun p : bool * Tracker =>
                       if fst p then snd (fst (tg_step (snd p) fl)) else rzero)
                    answers)),
     done, info) in
  (forall res, fst (step w action) = Return res -> res = result) /\
  (temp_goals w <> [] -> fst (step w action) = Return result).
Proof.
  assert (Hret : temp_goals w <> [] ->
            fst (step w action) =
            let '((obs, reward, done, info), _) := env_step (env w) action in
            let fl := fluent_extractor w obs (Some action) in
            let answers := combine (step_checks w action) (temp_goals w) in
            Return
              ((obs, map (fun p : bool * Tracker =>
                            fst (fst (goal_outcome (fst p) (snd p) fl)))
                         answers),
               radd reward
                 (py_sum (map (fun p : bool * Tracker =>
                                 if fst p then snd (fst (tg_step (snd p) fl))
                                 else rzero) answers)),
               done, info)).
  { intros Hne. rewrite (step_returns w action Hne).
    unfold step_checks, step_fluents.
    destruct (env_step (env w) action) as [[[[obs r] d] info] e1].
    cbv zeta. rewrite states_and_rewards_checks. cbn [fst].
    rewrite !map_map.
    rewrite (map_ext
               (fun x : bool * Tracker =>
                  snd (fst (goal_outcome (fst x) (snd x)
                              (fluent_extractor w obs (Some action)))))
               (fun p : bool * Tracker =>
                  if fst p
                  then snd (fst (tg_step (snd p)
                                   (fluent_extractor w obs (Some action))))
                  else rzero)).
    - reflexivity.
    - intros [ok tg]. destruct ok; reflexivity. }
  destruct (temp_goals w) as [| g rest] eqn:Hgoals.
  - pose proof (step_without_goals w action Hgoals) as Hraise.
    destruct (env_step (env w) action) as [[[[obs r] d] info] e1].
    cbv zeta. split.
    + intros res Hres. rewrite Hraise in Hres. discriminate.
    + intros Hne. now contradiction Hne.
  - assert (Hne : g :: rest <> []) by discriminate.
    specialize (Hret Hne).
    destruct (env_step (env w) action) as [[[[obs r] d] info] e1].
    cbv zeta in *. split.
    + intros res Hres. rewrite Hret in Hres. now injection Hres as <-.
    + intros _. exact Hret.
Qed.

(** C7. A goal whose call of [check] answered false in this step is, after
    the step, the very object it was before, so its current state is the
    same; the pair computed for it is its current state with reward zero,
    and that state is what the returned observation shows at its position.
    A goal that the step changed had its call answered true. *)
Theorem step_frame (w : Wrapper) (action : Action) (i : nat) (tg : Tracker) :
  nth_error (temp_goals w) i = Some tg ->
  (nth_error (step_checks w action) i = Some false ->
   nth_error (temp_goals (snd (step w action))) i = Some tg /\
   nth_error (fst (states_and_rewards (step_controller w)
                     (step_fluents w action) (temp_goals w))) i =
     Some (current_dfa_state tg, rzero) /\
   (forall obs sts r d info,
       fst (step w action) = Return ((obs, sts), r, d, info) ->
       nth_error sts i = Some (current_dfa_state tg))) /\
  (nth_error (temp_goals (snd (step w action))) i <> Some tg ->
   nth_error (step_checks w action) i = Some true).
Proof.
  intros Hg.
  assert (Hfalse : nth_error (step_checks w action) i = Some false ->
            nth_error (temp_goals (snd (step w action))) i = Some tg /\
            nth_error (fst (states_and_rewards (step_controller w)
                     (step_fluents w action) (temp_goals w))) i =
              Some (current_dfa_state tg, rzero)).
  { intros Hok. destruct (step_wrapper w action) as [_ Hgoals].
    rewrite Hgoals.
    destruct (states_and_rewards_nth (step_controller w)
                (step_fluents w action) (temp_goals w) i Hg Hok) as [H1 H2].
    split; assumption. }
  split.
  - intros Hok. destruct (Hfalse Hok) as [H1 H2].
    repeat split; try assumption.
    intros obs sts r d info Hret.
    assert (Hne : temp_goals w <> []).
    { intros Hnil. rewrite Hnil in Hg. destruct i; discriminate. }
    rewrite (step_returns w action Hne) in Hret.
    unfold step_fluents in H2.
    destruct (env_step (env w) action) as [[[[obs' r'] d'] info'] e1].
    cbv zeta in Hret. injection Hret as _ Hsts _ _ _.
    rewrite <- Hsts, nth_error_map, H2. reflexivity.
  - intros Hchanged.
    assert (Hlen : i < length (step_checks w action)).
    { unfold step_checks. rewrite length_checks.
      apply nth_error_Some. congruence. }
    apply nth_error_Some in Hlen.
    destruct (nth_error (step_checks w action) i) as [[|] |] eqn:Hok.
    + reflexivity.
    + exfalso. apply Hchanged. now apply Hfalse.
    + congruence.
Qed.



(** ** reset *)

Lemma reset_goals_map (fl : Interpretation) (goals : list Tracker) :
  reset_goals fl goals =
  (map (fun tg => initial_state (dfa (tg_simulator tg)) fl) goals,
   map (fun tg => snd (tg_reset tg fl)) goals).
Proof.
  induction goals as [| tg rest IH]; simpl.
  - reflexivity.
  - now rewrite IH.
Qed.

(** What [reset] returns and leaves behind: the environment is reset, the
    interpretation is extracted from the first observation and no action,
    every goal is reset with it; the controller is the one there was. *)
Lemma reset_unfold (w : Wrapper) :
  reset w =
  let obs := fst (env_reset (env w)) in
  let fl := fluent_extractor w obs None in
  ((obs, map (fun tg => initial_state (dfa (tg_simulator tg)) fl) (temp_goals w)),
   {| env := snd (env_reset (env w));
      temp_goals := map (fun tg => snd (tg_reset tg fl)) (temp_goals w);
      fluent_extractor := fluent_extractor w;
      step_controller := step_controller w;
      observation_space := observation_space w |}).
Proof.
  unfold reset. destruct (env_reset (env w)) as [obs e1]. cbn [fst snd].
  now rewrite reset_goals_map.
Qed.

Lemma reset_step_controller (w : Wrapper) :
  step_controller (snd (reset w)) = step_controller w.
Proof. now rewrite reset_unfold. Qed.

(** C8. When the environment gives the same first observation on two
    consecutive resets, the two calls of [reset] return the same
    observation and the same vector of goal states. *)
Theorem reset_twice (w : Wrapper) :
  fst (env_reset (snd (env_reset (env w)))) = fst (env_reset (env w)) ->
  fst (reset (snd (reset w))) = fst (reset w).
Proof.
  intros Hobs. rewrite (reset_unfold (snd (reset w))), !(reset_unfold w).
  cbn [fst snd env temp_goals fluent_extractor]. rewrite Hobs.
  f_equal. rewrite map_map. reflexivity.
Qed.

(** ** Construction *)

(** The counts that [MultiDiscrete] accepts. *)
Lemma gym_MultiDiscrete_positive (goals : list Tracker) :
  Forall (fun tg : Tracker => 0 < states (tg_automaton tg)) goals ->
  @gym_MultiDiscrete EnvSpace (map (@tg_observation_space_n _ _ _) goals) =
  Return (MultiDiscrete (map (@tg_observation_space_n _ _ _) goals)).
Proof.
  intros Hpos. unfold gym_MultiDiscrete.
  replace (forallb (fun n => 0 <? n)
             (map (@tg_observation_space_n _ _ _) goals)) with true;
    [reflexivity |].
  symmetry. apply forallb_forall. intros n Hn.
  apply in_map_iff in Hn. destruct Hn as [tg [<- Htg]].
  apply Nat.ltb_lt.
  exact (proj1 (Forall_forall _ goals) Hpos tg Htg).
Qed.

Lemma gym_MultiDiscrete_zero (goals : list Tracker) :
  Exists (fun tg : Tracker => states (tg_automaton tg) = 0) goals ->
  @gym_MultiDiscrete EnvSpace (map (@tg_observation_space_n _ _ _) goals) =
  Raise AssertionError.
Proof.
  intros Hzero. unfold gym_MultiDiscrete.
  destruct (forallb (fun n => 0 <? n)
              (map (@tg_observation_space_n _ _ _) goals)) eqn:Hall;
    [| reflexivity].
  exfalso. apply Exists_exists in Hzero. destruct Hzero as [tg [Htg Hz]].
  pose proof (proj1 (forallb_forall _ _) Hall
                (tg_observation_space_n tg) (in_map _ _ _ Htg)) as Hpos.
  apply Nat.ltb_lt in Hpos. unfold tg_observation_space_n in Hpos.
  rewrite Hz in Hpos. exact (Nat.lt_irrefl 0 Hpos).
Qed.

(** What a constructed wrapper holds. *)
Lemma init_returned (e : Env) (goals : list Tracker)
  (extractor : Obs -> option Action -> Interpretation)
  (controller : option Controller) (w0 : Wrapper) :
  TemporalGoalWrapper_init e goals extractor controller = Return w0 ->
  env w0 = e /\
  temp_goals w0 = goals /\
  fluent_extractor w0 = extractor /\
  step_controller w0 =
    match controller with
    | Some c => c
    | None => default_step_controller Interpretation
    end /\
  get_observation_space e goals = Return (observation_space w0).
Proof.
  unfold TemporalGoalWrapper_init.
  destruct (get_observation_space e goals) as [space | ex];
    [| discriminate].
  intros Hret. injection Hret as <-. repeat split.
Qed.

(** The space is built from the goals' state counts alone. *)
Lemma get_observation_space_shape (e : Env) (goals goals' : list Tracker) :
  map (@tg_observation_space_n _ _ _) goals =
  map (@tg_observation_space_n _ _ _) goals' ->
  get_observation_space e goals = get_observation_space e goals'.
Proof.
  intros Hshape. unfold get_observation_space. now rewrite Hshape.
Qed.

(** C3, as the code has it.  The constructor has no check of its own and
    raises no error of its own.  When every goal's automaton has at least
    one state, in particular when there is no goal at all, it returns the
    wrapper that holds the environment, the goals, the extractor and the
    controller given (the always-allowing one when none is given), with the
    observation space built from the goals' state counts.  When some
    automaton has no state, building the space fails in gym's
    [MultiDiscrete] and the constructor raises its [AssertionError]. *)
Theorem init_outcome (e : Env) (goals : list Tracker)
  (extractor : Obs -> option Action -> Interpretation)
  (controller : option Controller) :
  let built : Wrapper :=
    {| env := e;
       temp_goals := goals;
       fluent_extractor := extractor;
       step_controller :=
         match controller with
         | Some c => c
         | None => {| started := false; step_func := fun _ => true;
                      allow_first := true |}
         end;
       observation_space :=
         GymTuple (EnvObservationSpace (env_observation_space e))
                  (MultiDiscrete
                     (map (fun tg : Tracker => states (tg_automaton tg))
                          goals)) |} in
  (Forall (fun tg : Tracker => 0 < states (tg_automaton tg)) goals ->
   TemporalGoalWrapper_init e goals extractor controller = Return built) /\
  (goals = [] ->
   TemporalGoalWrapper_init e goals extractor controller = Return built) /\
  (Exists (fun tg : Tracker => states (tg_automaton tg) = 0) goals ->
   TemporalGoalWrapper_init e goals extractor controller =
   Raise AssertionError).
Proof.
  intros built.
  assert (Hpos : Forall (fun tg : Tracker => 0 < states (tg_automaton tg))
                   goals ->
                 TemporalGoalWrapper_init e goals extractor controller =
                 Return built).
  { intros Hall. unfold TemporalGoalWrapper_init, get_observation_space.
    now rewrite (gym_MultiDiscrete_positive Hall). }
  split; [exact Hpos |]. split.
  - intros Hnil. apply Hpos. rewrite Hnil. constructor.
  - intros Hzero. unfold TemporalGoalWrapper_init, get_observation_space.
    now rewrite (gym_MultiDiscrete_zero Hzero).
Qed.

(** ** Further properties of the controller *)

Lemma check_gate_holds (c : Controller) (fl : Interpretation) :
  step_func c fl = true -> fst (check c fl) = true.
Proof.
  intros Hg. unfold check.
  destruct (allow_first c && negb (started c)); [reflexivity |].
  destruct (negb (started c)); exact Hg.
Qed.

(** Whatever the controller was, after one call on an interpretation it is
    steady on it and answers it with the gate. *)
Lemma check_after_check (c : Controller) (fl : Interpretation) :
  steady (snd (check c fl)) fl /\
  fst (check (snd (check c fl)) fl) = step_func c fl.
Proof.
  unfold steady, check. destruct c as [s gate a]. simpl.
  destruct a, s; simpl; destruct (gate fl) eqn:Hg; simpl; rewrite ?Hg; auto.
Qed.

(** A refused call on a controller that has started, or that does not allow
    the first step, leaves the controller exactly as it was. *)
Lemma check_refused (c : Controller) (fl : Interpretation) :
  started c = true \/ allow_first c = false ->
  step_func c fl = false ->
  check c fl = (false, c).
Proof.
  unfold check. destruct c as [s gate a]. simpl.
  intros H Hg. destruct a, s; simpl; rewrite ?Hg; try reflexivity;
    destruct H; discriminate.
Qed.

(** X1. Within one step only the first call can answer otherwise than the gate:
    for every controller, the answers of [S m] successive calls on one
    interpretation are the first call's answer followed by [m] times the
    gate's value. *)
Theorem checks_after_first (c : Controller) (fl : Interpretation) (m : nat) :
  checks c fl (S m) = fst (check c fl) :: repeat (step_func c fl) m.
Proof.
  rewrite checks_S. f_equal.
  destruct (check_after_check c fl) as [Hst Heq].
  now rewrite (checks_steady m Hst), Heq.
Qed.

(** X2. A controller that does not allow the first step answers every call with
    the gate's value on that call's interpretation, started or not: its flag
    never shows in an answer. *)
Theorem gate_only_answers (c : Controller) (fls : list Interpretation) :
  allow_first c = false ->
  map fst (check_trace c fls) = map (step_func c) fls.
Proof.
  revert c. induction fls as [| fl rest IH]; intros c Ha.
  - reflexivity.
  - cbn [check_trace map]. f_equal.
    + unfold check. rewrite Ha. simpl. destruct (started c); reflexivity.
    + destruct (check_keeps_gate c fl) as [Hgate Hallow].
      rewrite IH by (now rewrite Hallow).
      now rewrite Hgate.
Qed.

(** X3. A controller that allows the first step, after [reset]: the first call
    answers true and starts it, every later call answers with the gate and
    leaves the controller started. *)
Theorem allowed_first_trace (c : Controller) (fl : Interpretation)
  (rest : list Interpretation) :
  allow_first c = true ->
  check_trace (sc_reset c) (fl :: rest) =
  (true, set_started c true) ::
  map (fun x => (step_func c x, set_started c true)) rest.
Proof.
  intros Ha. cbn [check_trace].
  rewrite (check_unstarted_allowed (sc_reset c) fl Ha (started_sc_reset c)).
  cbn [snd].
  change (set_started (sc_reset c) true) with (set_started c true).
  now rewrite check_trace_started.
Qed.

(** The controller after the calls of one step. *)
Lemma controller_after_fields (c : Controller) (fl : Interpretation) (n : nat) :
  step_func (controller_after c fl n) = step_func c /\
  allow_first (controller_after c fl n) = allow_first c /\
  started (controller_after c fl n) =
    started c ||
    match n with 0 => false | S _ => allow_first c || step_func c fl end.
Proof.
  revert c. induction n as [| n IH]; intros c.
  - cbn. now rewrite orb_false_r.
  - rewrite controller_after_S.
    destruct (IH (snd (check c fl))) as [Hg [Ha Hs]].
    destruct (check_keeps_gate c fl) as [Hg1 Ha1].
    rewrite Hg, Ha, Hs, Hg1, Ha1. repeat split.
    rewrite check_started_after. unfold check.
    destruct (allow_first c), (started c), (step_func c fl), n; reflexivity.
Qed.

Lemma controller_after_refused (c : Controller) (fl : Interpretation) (n : nat) :
  started c = true \/ allow_first c = false ->
  step_func c fl = false ->
  controller_after c fl n = c /\ checks c fl n = repeat false n.
Proof.
  intros Hc Hg. induction n as [| n IH].
  - split; reflexivity.
  - rewrite controller_after_S, checks_S, (check_refused c fl Hc Hg).
    cbn [fst snd]. destruct IH as [IH1 IH2]. rewrite IH1, IH2.
    split; reflexivity.
Qed.

Lemma checks_gate_holds (c : Controller) (fl : Interpretation) (n : nat) :
  step_func c fl = true -> checks c fl n = repeat true n.
Proof.
  intros Hg.
  rewrite checks_steady by (right; right; exact Hg).
  now rewrite (check_gate_holds c fl Hg).
Qed.

(** ** Further properties of step and reset *)

Lemma length_states_and_rewards (c : Controller) (fl : Interpretation)
  (goals : list Tracker) :
  length (fst (states_and_rewards c fl goals)) = length goals /\
  length (snd (snd (states_and_rewards c fl goals))) = length goals.
Proof.
  rewrite states_and_rewards_checks. cbn [fst snd].
  rewrite !length_map, length_combine, length_checks.
  split; apply Nat.min_id.
Qed.

(** X5. The vector of goal states that [step] and [reset] return has one entry
    per configured goal, and both calls leave as many goals as they found. *)
Theorem state_vector_length (w : Wrapper) (action : Action) :
  (forall obs sts r d info,
      fst (step w action) = Return ((obs, sts), r, d, info) ->
      length sts = length (temp_goals w)) /\
  length (snd (fst (reset w))) = length (temp_goals w) /\
  length (temp_goals (snd (step w action))) = length (temp_goals w) /\
  length (temp_goals (snd (reset w))) = length (temp_goals w).
Proof.
  repeat split.
  - intros obs sts r d info Hret.
    destruct (temp_goals w) as [| g rest] eqn:Hgoals.
    + rewrite (step_without_goals w action Hgoals) in Hret. discriminate.
    + assert (Hne : temp_goals w <> []) by (rewrite Hgoals; discriminate).
      rewrite (step_returns w action Hne) in Hret.
      destruct (env_step (env w) action) as [[[[obs' r'] d'] info'] e1].
      cbv zeta in Hret. injection Hret as _ Hsts _ _ _.
      rewrite <- Hsts, length_map, <- Hgoals.
      apply length_states_and_rewards.
  - rewrite reset_unfold. cbn [fst snd]. apply length_map.
  - destruct (step_wrapper w action) as [_ Hg]. rewrite Hg.
    apply length_states_and_rewards.
  - rewrite reset_unfold. cbn [snd temp_goals]. apply length_map.
Qed.

(** X6. The controller that a step over at least one goal leaves behind: gate
    and [allow_first] as before, and the flag set exactly when it was set,
    or the first step is allowed, or the gate holds on the step's
    interpretation. *)
Theorem step_controller_after_step (w : Wrapper) (action : Action) :
  temp_goals w <> [] ->
  let c := step_controller w in
  let c' := step_controller (snd (step w action)) in
  step_func c' = step_func c /\
  allow_first c' = allow_first c /\
  started c' = started c || allow_first c || step_func c (step_fluents w action).
Proof.
  intros Hne c c'. subst c'.
  destruct (step_wrapper w action) as [Hc _]. rewrite Hc.
  rewrite states_and_rewards_checks. cbn [fst snd].
  destruct (controller_after_fields c (step_fluents w action)
              (length (temp_goals w))) as [Hg [Ha Hs]].
  fold c. rewrite Hg, Ha, Hs. repeat split.
  destruct (temp_goals w); [contradiction |].
  cbn [length]. now rewrite orb_assoc.
Qed.

(** X7. When the gate refuses on a controller that has started, or that does not
    allow the first step, [step] changes nothing but the environment: every
    goal and the controller are as before, and the returned vector shows the
    goals' current states. *)
Theorem step_refused (w : Wrapper) (action : Action) :
  started (step_controller w) = true \/ allow_first (step_controller w) = false ->
  step_func (step_controller w) (step_fluents w action) = false ->
  temp_goals (snd (step w action)) = temp_goals w /\
  step_controller (snd (step w action)) = step_controller w /\
  (forall obs sts r d info,
      fst (step w action) = Return ((obs, sts), r, d, info) ->
      sts = map (@current_dfa_state _ _ _) (temp_goals w)).
Proof.
  intros Hc Hg.
  destruct (@controller_after_refused (step_controller w)
              (step_fluents w action) (length (temp_goals w)) Hc Hg)
    as [Hctl Hchk].
  assert (Hsr : states_and_rewards (step_controller w) (step_fluents w action)
                  (temp_goals w) =
                (map (fun tg : Tracker => (current_dfa_state tg, rzero))
                     (temp_goals w),
                 (step_controller w, temp_goals w))).
  { rewrite states_and_rewards_checks, Hctl, Hchk, !map_combine_repeat.
    cbn [goal_outcome fst snd]. now rewrite map_id. }
  destruct (step_wrapper w action) as [Hc' Hg'].
  rewrite Hc', Hg', Hsr. repeat split.
  intros obs sts r d info Hret.
  destruct (temp_goals w) as [| g rest] eqn:Hgoals.
  - rewrite (step_without_goals w action Hgoals) in Hret. discriminate.
  - assert (Hne : temp_goals w <> []) by (rewrite Hgoals; discriminate).
    rewrite (step_returns w action Hne) in Hret.
    unfold step_fluents in Hsr.
    destruct (env_step (env w) action) as [[[[obs' r'] d'] info'] e1].
    cbv zeta in Hret. rewrite Hgoals, Hsr in Hret.
    injection Hret as _ Hsts _ _ _.
    rewrite <- Hsts. cbn [fst]. now rewrite map_map.
Qed.

Lemma step_gate_holds_aux (w : Wrapper) (action : Action) :
  step_func (step_controller w) (step_fluents w action) = true ->
  step_checks w action = repeat true (length (temp_goals w)) /\
  temp_goals (snd (step w action)) =
    map (fun tg => snd (tg_step tg (step_fluents w action))) (temp_goals w).
Proof.
  intros Hg.
  pose proof (@checks_gate_holds (step_controller w) (step_fluents w action)
                (length (temp_goals w)) Hg) as Hchk.
  split; [exact Hchk |].
  destruct (step_wrapper w action) as [_ Hg'].
  rewrite Hg', states_and_rewards_checks, Hchk, !map_combine_repeat.
  reflexivity.
Qed.

(** X8. When the gate holds on the step's interpretation, every goal is
    advanced by its own [step], whatever the controller's flag and
    [allow_first] are, and the returned vector shows the states the goals'
    steps returned. *)
Theorem step_gate_holds (w : Wrapper) (action : Action) :
  step_func (step_controller w) (step_fluents w action) = true ->
  step_checks w action = repeat true (length (temp_goals w)) /\
  temp_goals (snd (step w action)) =
    map (fun tg => snd (tg_step tg (step_fluents w action))) (temp_goals w) /\
  (forall obs sts r d info,
      fst (step w action) = Return ((obs, sts), r, d, info) ->
      sts = map (fun tg => fst (fst (tg_step tg (step_fluents w action))))
                (temp_goals w)).
Proof.
  intros Hg.
  pose proof (@checks_gate_holds (step_controller w) (step_fluents w action)
                (length (temp_goals w)) Hg) as Hchk.
  assert (Hsr : fst (states_and_rewards (step_controller w)
                       (step_fluents w action) (temp_goals w)) =
                map (fun tg => fst (tg_step tg (step_fluents w action)))
                    (temp_goals w) /\
                snd (snd (states_and_rewards (step_controller w)
                       (step_fluents w action) (temp_goals w))) =
                map (fun tg => snd (tg_step tg (step_fluents w action)))
                    (temp_goals w)).
  { rewrite states_and_rewards_checks, Hchk, !map_combine_repeat.
    split; reflexivity. }
  destruct Hsr as [Hsr1 Hsr2].
  destruct (step_wrapper w action) as [_ Hg'].
  rewrite Hg', Hsr2. repeat split; [exact Hchk |].
  intros obs sts r d info Hret.
  destruct (temp_goals w) as [| g rest] eqn:Hgoals.
  - rewrite (step_without_goals w action Hgoals) in Hret. discriminate.
  - assert (Hne : temp_goals w <> []) by (rewrite Hgoals; discriminate).
    rewrite (step_returns w action Hne) in Hret.
    unfold step_fluents in *.
    destruct (env_step (env w) action) as [[[[obs' r'] d'] info'] e1].
    cbv zeta in Hret. rewrite Hgoals, Hsr1 in Hret.
    injection Hret as _ Hsts _ _ _.
    rewrite <- Hsts. now rewrite map_map.
Qed.

(** X9. The pair computed for a goal depends on the other goals only through
    the number of goals that come before it: which goals they are, and
    whatever comes after, make no difference. *)
Theorem tracker_outcome_counts_predecessors (c : Controller)
  (fl : Interpretation) (before before' : list Tracker) (tg : Tracker)
  (after after' : list Tracker) :
  length before = length before' ->
  tracker_outcome c fl before tg after = tracker_outcome c fl before' tg after'.
Proof.
  revert c before'. induction before as [| x before IH];
    intros c [| x' before'] Hlen; try discriminate.
  - now rewrite !tracker_outcome_nil.
  - rewrite !tracker_outcome_cons. apply IH. now injection Hlen.
Qed.

(** ** Sequences of calls *)

(** Neither branch of the comprehension touches a goal's automaton. *)
Lemma goal_outcome_shape (ok : bool) (tg : Tracker) (fl : Interpretation) :
  tg_observation_space_n (snd (goal_outcome ok tg fl)) =
  tg_observation_space_n tg.
Proof. destruct ok; reflexivity. Qed.

Lemma states_and_rewards_shape (c : Controller) (fl : Interpretation)
  (goals : list Tracker) :
  map (@tg_observation_space_n _ _ _)
      (snd (snd (states_and_rewards c fl goals))) =
  map (@tg_observation_space_n _ _ _) goals.
Proof.
  revert c. induction goals as [| tg rest IH]; intros c.
  - reflexivity.
  - cbn [states_and_rewards].
    destruct (check c fl) as [ok c1].
    change (if ok then tg_step tg fl else (current_dfa_state tg, rzero, tg))
      with (goal_outcome ok tg fl).
    pose proof (goal_outcome_shape ok tg fl) as Htg.
    destruct (goal_outcome ok tg fl) as [sr tg1].
    specialize (IH c1).
    destruct (states_and_rewards c1 fl rest) as [srs [c2 rest1]].
    cbn [snd map] in *. now rewrite Htg, IH.
Qed.

Lemma step_keeps (w : Wrapper) (action : Action) :
  fluent_extractor (snd (step w action)) = fluent_extractor w /\
  observation_space (snd (step w action)) = observation_space w /\
  env (snd (step w action)) = snd (env_step (env w) action).
Proof.
  unfold step.
  destruct (env_step (env w) action) as [[[[obs r] d] info] e1].
  destruct (states_and_rewards _ _ _) as [srs [c1 g1]].
  destruct (zip_star srs) as [[sts rs] | e]; repeat split.
Qed.

(** What one call keeps. *)
Lemma do_call_keeps (w : Wrapper) (k : call Action) :
  map (@tg_observation_space_n _ _ _) (temp_goals (do_call w k)) =
    map (@tg_observation_space_n _ _ _) (temp_goals w) /\
  fluent_extractor (do_call w k) = fluent_extractor w /\
  observation_space (do_call w k) = observation_space w /\
  step_func (step_controller (do_call w k)) = step_func (step_controller w) /\
  allow_first (step_controller (do_call w k)) =
    allow_first (step_controller w) /\
  (started (step_controller w) = true ->
   started (step_controller (do_call w k)) = true) /\
  env (do_call w k) = env_call (env w) k.
Proof.
  destruct k as [| action]; cbn [do_call env_call].
  - rewrite reset_unfold.
    cbn [snd temp_goals fluent_extractor observation_space step_controller env].
    rewrite map_map. repeat split; auto.
  - destruct (step_wrapper w action) as [Hc Hg].
    rewrite Hc, Hg, states_and_rewards_shape.
    rewrite states_and_rewards_checks. cbn [fst snd].
    destruct (controller_after_fields (step_controller w)
                (step_fluents w action) (length (temp_goals w)))
      as [Hgate [Hallow Hstarted]].
    rewrite Hgate, Hallow, Hstarted.
    destruct (step_keeps w action) as [He [Ho Henv]].
    repeat split; auto.
    intros Hs. now rewrite Hs.
Qed.

Lemma run_keeps (w : Wrapper) (calls : list (call Action)) :
  map (@tg_observation_space_n _ _ _) (temp_goals (run w calls)) =
    map (@tg_observation_space_n _ _ _) (temp_goals w) /\
  fluent_extractor (run w calls) = fluent_extractor w /\
  observation_space (run w calls) = observation_space w /\
  step_func (step_controller (run w calls)) = step_func (step_controller w) /\
  allow_first (step_controller (run w calls)) = allow_first (step_controller w).
Proof.
  revert w. induction calls as [| k calls IH]; intros w.
  - repeat split.
  - cbn [run fold_left]. fold (run (do_call w k) calls).
    destruct (IH (do_call w k)) as [H1 [H2 [H3 [H4 H5]]]].
    destruct (do_call_keeps w k) as [K1 [K2 [K3 [K4 [K5 _]]]]].
    rewrite H1, H2, H3, H4, H5. repeat split; assumption.
Qed.

(** X10. Over any sequence of [reset] and [step] calls a constructed wrapper
    keeps its configuration: the extractor, the controller's gate and
    [allow_first], the number of goals, and an observation space that still
    describes the goals it holds, one dimension per goal with that goal's
    number of states: building the space again from the goals it holds now
    succeeds and gives the space it has. *)
Theorem run_keeps_configuration (e : Env) (goals : list Tracker)
  (extractor : Obs -> option Action -> Interpretation)
  (controller : option Controller) (w0 : Wrapper)
  (calls : list (call Action)) :
  TemporalGoalWrapper_init e goals extractor controller = Return w0 ->
  let w := run w0 calls in
  fluent_extractor w = extractor /\
  step_func (step_controller w) = step_func (step_controller w0) /\
  allow_first (step_controller w) = allow_first (step_controller w0) /\
  length (temp_goals w) = length goals /\
  get_observation_space e (temp_goals w) = Return (observation_space w).
Proof.
  intros Hinit w.
  destruct (init_returned _ _ _ _ Hinit) as [_ [Hgoals [Hex [_ Hspace]]]].
  destruct (run_keeps w0 calls) as [H1 [H2 [H3 [H4 H5]]]].
  fold w in H1, H2, H3, H4, H5.
  rewrite Hgoals in H1.
  repeat split; try assumption.
  - now rewrite H2.
  - apply (f_equal (@length nat)) in H1.
    now rewrite !length_map in H1.
  - rewrite H3, <- Hspace. now apply get_observation_space_shape.
Qed.

(** X11. Once the controller has started, no sequence of calls on the wrapper
    brings it back: neither [step] nor the wrapper's [reset] clears the
    flag. *)
Theorem started_never_cleared (w : Wrapper) (calls : list (call Action)) :
  started (step_controller w) = true ->
  started (step_controller (run w calls)) = true.
Proof.
  revert w. induction calls as [| k calls IH]; intros w Hs.
  - exact Hs.
  - cbn [run fold_left]. fold (run (do_call w k) calls).
    apply IH. now apply (do_call_keeps w k).
Qed.

(** X12. The wrapper drives the inner environment exactly as the same calls
    would drive it unwrapped, also across a call that raises. *)
Theorem run_env (w : Wrapper) (calls : list (call Action)) :
  env (run w calls) = fold_left (@env_call _ _ _ _ _ _ _) calls (env w).
Proof.
  revert w. induction calls as [| k calls IH]; intros w.
  - reflexivity.
  - cbn [run fold_left]. fold (run (do_call w k) calls).
    rewrite IH. f_equal. apply (do_call_keeps w k).
Qed.

(** X13. A wrapper constructed without a controller never holds a goal back:
    after any sequence of calls, a [step] asks the controller once per goal,
    every answer is true and every goal is advanced by its own [step]. *)
Theorem default_controller_never_blocks (e : Env) (goals : list Tracker)
  (extractor : Obs -> option Action -> Interpretation) (w0 : Wrapper)
  (calls : list (call Action)) (action : Action) :
  TemporalGoalWrapper_init e goals extractor None = Return w0 ->
  let w := run w0 calls in
  step_checks w action = repeat true (length goals) /\
  temp_goals (snd (step w action)) =
    map (fun tg => snd (tg_step tg (step_fluents w action))) (temp_goals w).
Proof.
  intros Hinit w.
  destruct (init_returned _ _ _ _ Hinit) as [_ [Hgoals [_ [Hctl _]]]].
  destruct (run_keeps w0 calls) as [Hshape [_ [_ [Hgate _]]]].
  fold w in Hshape, Hgate.
  assert (Hg : step_func (step_controller w) (step_fluents w action) = true)
    by (now rewrite Hgate, Hctl).
  destruct (step_gate_holds_aux w action Hg) as [Hchk Hstepped].
  split; [| exact Hstepped].
  rewrite Hchk. f_equal.
  apply (f_equal (@length nat)) in Hshape.
  rewrite !length_map in Hshape. now rewrite Hshape, Hgoals.
Qed.

(** X4. A wrapper with an empty goal list is constructed, and it can be
    reset; but after any sequence of calls its [step] raises [ValueError],
    there being nothing for [zip] to unpack, and it does so after the inner
    environment has been stepped and without asking the controller. *)
Theorem empty_goal_list_steps_raise (e : Env)
  (extractor : Obs -> option Action -> Interpretation)
  (controller : option Controller) (calls : list (call Action))
  (action : Action) :
  exists w0 : Wrapper,
    TemporalGoalWrapper_init e [] extractor controller = Return w0 /\
    let w := run w0 calls in
    temp_goals w = [] /\
    snd (fst (reset w)) = [] /\
    fst (step w action) = Raise ValueError /\
    env (snd (step w action)) = snd (env_step (env w) action) /\
    step_controller (snd (step w action)) = step_controller w.
Proof.
  destruct (TemporalGoalWrapper_init e [] extractor controller)
    as [w0 | ex] eqn:Hinit; [| discriminate Hinit].
  exists w0. split; [reflexivity |]. intros w.
  destruct (init_returned _ _ _ _ Hinit) as [_ [Hgoals _]].
  destruct (run_keeps w0 calls) as [Hshape _]. fold w in Hshape.
  assert (Hnil : temp_goals w = []).
  { rewrite Hgoals in Hshape. cbn [map] in Hshape.
    destruct (temp_goals w); [reflexivity | discriminate Hshape]. }
  split; [exact Hnil |].
  split; [rewrite reset_unfold; cbn [fst snd]; now rewrite Hnil |].
  split; [exact (step_without_goals w action Hnil) |].
  split; [apply step_keeps |].
  destruct (step_wrapper w action) as [Hc _]. rewrite Hc, Hnil. reflexivity.
Qed.

End Properties.

(** * The properties on the concrete instance *)

Import Demo.

(** C1. The wrapper's [reset] leaves the controller as it finds it: once a
    step has started the controller, the flag is still set after the next
    [reset] of the wrapper. *)
Theorem reset_leaves_controller_started :
  started (step_controller after_one_step) = true /\
  started (step_controller (snd (reset after_one_step))) = true /\
  fst (reset after_one_step) = (0, [0; 0]).
Proof.
  rewrite reset_step_controller. repeat split.
Qed.


(** The wrappers of the concrete instance are what the constructor
    returns. *)
Lemma wrapper_constructed :
  TemporalGoalWrapper_init 0 [g3; g2] extractor None = Return two_goals /\
  TemporalGoalWrapper_init 0 [g3; g2; g3] extractor (Some first_only) =
    Return three_goals /\
  TemporalGoalWrapper_init 0 [g3; g2] extractor (Some refusing) =
    Return closed_goals /\
  TemporalGoalWrapper_init 0 [] extractor None = Return (wrapper [] None).
Proof.
  repeat split.
Qed.

(** C3 fails as stated: with no goal at all the constructor raises nothing
    and returns a wrapper, whose goal list is empty; the first failure is
    that of its [step], which finds nothing to unpack. *)
Lemma init_accepts_empty_goal_list :
  TemporalGoalWrapper_init 0 [] extractor None = Return (wrapper [] None) /\
  temp_goals (wrapper [] None) = [] /\
  observation_space (wrapper [] None) =
    GymTuple (EnvObservationSpace 100) (MultiDiscrete []) /\
  fst (step (wrapper [] None) 2) = Raise ValueError.
Proof.
  repeat split.
Qed.


Lemma init_outcome_witness :
  Forall (fun tg : TemporalGoal (list string) nat Z =>
            0 < states (tg_automaton tg)) [g3; g2] /\
  TemporalGoalWrapper_init 0 [g3; g2] extractor None = Return two_goals /\
  Exists (fun tg : TemporalGoal (list string) nat Z =>
            states (tg_automaton tg) = 0) [g3; g0] /\
  TemporalGoalWrapper_init 0 [g3; g0] extractor None = Raise AssertionError.
Proof.
  assert (Hpos : Forall (fun tg : TemporalGoal (list string) nat Z =>
                           0 < states (tg_automaton tg)) [g3; g2]).
  { repeat constructor. }
  assert (Hzero : Exists (fun tg : TemporalGoal (list string) nat Z =>
                            states (tg_automaton tg) = 0) [g3; g0]).
  { right. left. reflexivity. }
  split; [exact Hpos |].
  split; [exact (proj1 (init_outcome 0 [g3; g2] extractor None) Hpos) |].
  split; [exact Hzero |].
  exact (proj2 (proj2 (init_outcome 0 [g3; g0] extractor None)) Hzero).
Defined.

Lemma first_check_passes_witness :
  allow_first first_only = true /\ started first_only = false /\
  step_func first_only ["a"%string] = false /\
  fst (check first_only ["a"%string]) = true /\
  snd (check first_only ["a"%string]) = set_started first_only true /\
  started (snd (check first_only ["a"%string])) = true.
Proof.
  split; [reflexivity |]. split; [reflexivity |]. split; [reflexivity |].
  apply (first_check_passes first_only ["a"%string]); reflexivity.
Defined.

Lemma latched_activation_witness :
  allow_first latched = false /\
  check_trace (sc_reset latched)
    ([[]; ["a"%string]] ++ ["go"%string] :: [[]; ["go"%string; "a"%string]]) =
  map (fun _ => (false, sc_reset latched)) [[]; ["a"%string]] ++
  (true, set_started latched true) ::
  map (fun x => (step_func latched x, set_started latched true))
      [[]; ["go"%string; "a"%string]] /\
  map (fun r => started (snd r))
      (check_trace (sc_reset latched)
         ([[]; ["a"%string]] ++ ["go"%string] ::
          [[]; ["go"%string; "a"%string]])) =
  [false; false; true; true; true].
Proof.
  split; [reflexivity |].
  apply (proj1 (latched_activation latched eq_refl)).
  - intros x [<- | [<- | []]]; reflexivity.
  - reflexivity.
Defined.

Lemma started_flips_once_witness :
  nth_error (check_trace (sc_reset latched) [[]; ["go"%string]; []]) 1 =
    Some (true, set_started latched true) /\
  started (set_started latched true) =
    existsb fst (firstn 2 (check_trace (sc_reset latched)
                             [[]; ["go"%string]; []])).
Proof.
  split; [reflexivity |].
  apply (proj1 (started_flips_once latched [[]; ["go"%string]; []])
           1 true (set_started latched true)).
  reflexivity.
Defined.

Lemma step_total_reward_witness :
  temp_goals (snd (reset two_goals)) <> [] /\
  fst (step (snd (reset two_goals)) 2) =
    Return ((2, [1; 1]), (1 + (0 + 5 + 7))%Z, false, tt).
Proof.
  assert (H : temp_goals (snd (reset two_goals)) <> []) by discriminate.
  split; [exact H |].
  exact (proj2 (step_total_reward (snd (reset two_goals)) 2) H).
Defined.

Lemma step_frame_witness :
  nth_error (temp_goals three_goals) 1 = Some g2 /\
  nth_error (step_checks three_goals 1) 1 = Some false /\
  nth_error (temp_goals (snd (step three_goals 1))) 1 = Some g2 /\
  nth_error (fst (states_and_rewards (step_controller three_goals)
                    (step_fluents three_goals 1) (temp_goals three_goals))) 1 =
    Some (current_dfa_state g2, 0%Z).
Proof.
  split; [reflexivity |]. split; [reflexivity |].
  destruct (proj1 (step_frame three_goals 1 1 (tg := g2) eq_refl) eq_refl)
    as [H1 [H2 _]].
  split; [exact H1 | exact H2].
Defined.



Lemma reset_twice_witness :
  fst (env_reset (snd (env_reset (env two_goals)))) =
    fst (env_reset (env two_goals)) /\
  fst (reset (snd (reset two_goals))) = fst (reset two_goals).
Proof.
  split; [reflexivity |].
  apply (reset_twice two_goals). reflexivity.
Defined.

Lemma gate_only_answers_witness :
  allow_first (set_started latched true) = false /\
  map fst (check_trace (set_started latched true)
             [[]; ["go"%string]; ["a"%string]]) = [false; true; false].
Proof.
  split; [reflexivity |].
  exact (gate_only_answers (set_started latched true)
           [[]; ["go"%string]; ["a"%string]] eq_refl).
Defined.

Lemma allowed_first_trace_witness :
  allow_first first_only = true /\
  check_trace (sc_reset first_only) [[]; ["a"%string]; []] =
  [(true, refusing); (false, refusing); (false, refusing)].
Proof.
  split; [reflexivity |].
  exact (allowed_first_trace first_only [] [["a"%string]; []] eq_refl).
Defined.

Lemma state_vector_length_witness :
  fst (step two_goals 2) = Return ((2, [1; 1]), 13%Z, false, tt) /\
  length [1; 1] = length (temp_goals two_goals).
Proof.
  split; [reflexivity |].
  exact (proj1 (state_vector_length two_goals 2)
           2 [1; 1] 13%Z false tt eq_refl).
Defined.

Lemma step_controller_after_step_witness :
  temp_goals three_goals <> [] /\
  started (step_controller three_goals) = false /\
  step_func (step_controller three_goals) (step_fluents three_goals 1) = false /\
  started (step_controller (snd (step three_goals 1))) = true.
Proof.
  assert (H : temp_goals three_goals <> []) by discriminate.
  split; [exact H |]. split; [reflexivity |]. split; [reflexivity |].
  exact (proj2 (proj2 (step_controller_after_step three_goals 1 H))).
Defined.

Lemma step_refused_witness :
  started (step_controller closed_goals) = true /\
  step_func (step_controller closed_goals) (step_fluents closed_goals 1) = false /\
  temp_goals (snd (step closed_goals 1)) = temp_goals closed_goals /\
  step_controller (snd (step closed_goals 1)) = step_controller closed_goals.
Proof.
  split; [reflexivity |]. split; [reflexivity |].
  destruct (step_refused closed_goals 1 (or_introl eq_refl) eq_refl)
    as [H1 [H2 _]].
  split; [exact H1 | exact H2].
Defined.

Lemma step_gate_holds_witness :
  step_func (step_controller two_goals) (step_fluents two_goals 2) = true /\
  step_checks two_goals 2 = [true; true] /\
  map (@current_dfa_state _ _ _) (temp_goals (snd (step two_goals 2))) = [1; 1].
Proof.
  split; [reflexivity |].
  destruct (step_gate_holds two_goals 2 eq_refl) as [H1 [H2 _]].
  split; [exact H1 |].
  rewrite H2. reflexivity.
Defined.

Lemma tracker_outcome_counts_predecessors_witness :
  length [g2] = length [g3] /\
  tracker_outcome first_only ["a"%string] [g2] g3 [g2; g2] =
  tracker_outcome first_only ["a"%string] [g3] g3 [].
Proof.
  split; [reflexivity |].
  exact (tracker_outcome_counts_predecessors first_only ["a"%string]
           [g2] [g3] g3 [g2; g2] [] eq_refl).
Defined.

Lemma started_never_cleared_witness :
  started (step_controller after_one_step) = true /\
  started (step_controller (run after_one_step two_episodes)) = true.
Proof.
  split; [reflexivity |].
  exact (started_never_cleared after_one_step two_episodes eq_refl).
Defined.

Lemma run_keeps_configuration_witness :
  TemporalGoalWrapper_init 0 [g3; g2; g3] extractor (Some first_only) =
    Return three_goals /\
  length (temp_goals (run three_goals two_episodes)) = 3 /\
  get_observation_space 0 (temp_goals (run three_goals two_episodes)) =
    Return (observation_space (run three_goals two_episodes)).
Proof.
  assert (H : TemporalGoalWrapper_init 0 [g3; g2; g3] extractor
                (Some first_only) = Return three_goals) by reflexivity.
  split; [exact H |].
  destruct (run_keeps_configuration 0 [g3; g2; g3] extractor
              (Some first_only) two_episodes H)
    as [_ [_ [_ [Hlen Hspace]]]].
  split; [exact Hlen | exact Hspace].
Defined.

Lemma default_controller_never_blocks_witness :
  TemporalGoalWrapper_init 0 [g3; g2] extractor None = Return two_goals /\
  step_checks (run two_goals two_episodes) 1 = [true; true].
Proof.
  assert (H : TemporalGoalWrapper_init 0 [g3; g2] extractor None =
              Return two_goals) by reflexivity.
  split; [exact H |].
  exact (proj1 (default_controller_never_blocks 0 [g3; g2] extractor
                  two_episodes 1 H)).
Defined.
